(** * Deferred response composition of the [characters.$id] route

    A shallow embedding of [app/routes/characters.$id.tsx] (the loader and
    the components it renders) and of the listing route's loader, together
    with the properties of the deferred/streamed response composition.

    Time is logical: a natural number of milliseconds.  A promise is the
    instant at which it settles together with the way it settles; an [async]
    function is a computation over the current instant and the log of the
    calls made to the query gateway. *)

From Stdlib Require Import String List Arith Bool Lia.
Import ListNotations.
Local Open Scope string_scope.

Set Implicit Arguments.

(* ===================================================================== *)
(** ** Promises and [async] functions *)
(* ===================================================================== *)

Definition Time := nat.

(** The values a JavaScript [throw] or a rejection carries here. *)
Inductive JsError : Type :=
| TypeError (message : string)
| Error (message : string).

Inductive Settled (A : Type) : Type :=
| Fulfilled (value : A)
| Rejected (reason : JsError).
Arguments Rejected {A} reason.

Record Promise (A : Type) : Type := mkPromise {
  settled_at : Time;
  outcome : Settled A
}.

(** What an observer sees of a promise at instant [t]. *)
Inductive HandleState (A : Type) : Type :=
| Pending
| Done (result : Settled A).
Arguments Pending {A}.

Definition state_at {A} (p : Promise A) (t : Time) : HandleState A :=
  if (t <? settled_at p)%nat then Pending else Done (outcome p).

(** [promise.catch(error => { promiseError = error })] as used by a wrapper
    that re-raises afterwards: the result never rejects and carries the way
    the original promise settled. *)
Definition promise_catch {A} (p : Promise A) : Promise (Settled A) :=
  {| settled_at := settled_at p; outcome := Fulfilled (outcome p) |}.

(** [Promise.all([p, q])]: fulfilled once both are, rejected as soon as one
    of them is (the first in the array when both reject at the same instant). *)
Definition Promise_all {A B} (p : Promise A) (q : Promise B) : Promise (A * B) :=
  match outcome p, outcome q with
  | Fulfilled a, Fulfilled b =>
      {| settled_at := Nat.max (settled_at p) (settled_at q);
         outcome := Fulfilled (a, b) |}
  | Rejected e, Fulfilled _ =>
      {| settled_at := settled_at p; outcome := Rejected e |}
  | Fulfilled _, Rejected e =>
      {| settled_at := settled_at q; outcome := Rejected e |}
  | Rejected e1, Rejected e2 =>
      if (settled_at p <=? settled_at q)%nat
      then {| settled_at := settled_at p; outcome := Rejected e1 |}
      else {| settled_at := settled_at q; outcome := Rejected e2 |}
  end.

(** The query gateway: documents, options and the log of calls. *)
Inductive Document : Type :=
| CHARACTER_QUERY
| CHARACTER_LOCATIONS_QUERY
| DEFERRED_CHARACTER_EPISODES_QUERY
| CHARACTERS_QUERY.

Inductive CachePolicy : Type := CacheNone | CacheShort | CacheLong.

(** A [variables] object: property names with their values, [None] for a
    property whose value is [undefined]. *)
Definition Variables := list (string * option string).

Record QueryOptions : Type := mkOptions {
  variables : option Variables;   (* [None]: the property is not given *)
  cache : CachePolicy
}.

Record Call : Type := mkCall {
  call_at : Time;
  call_document : Document;
  call_options : QueryOptions
}.

Record World : Type := mkWorld {
  now : Time;
  calls : list Call
}.

(** An [async] function body: from the instant it is at and the calls made
    so far, it returns or throws, at a later instant. *)
Definition Async (A : Type) : Type := World -> Settled A * World.

Definition ret {A} (a : A) : Async A := fun w => (Fulfilled a, w).

Definition throw {A} (e : JsError) : Async A := fun w => (Rejected e, w).

Definition bind {A B} (m : Async A) (k : A -> Async B) : Async B :=
  fun w =>
    match m w with
    | (Fulfilled a, w') => k a w'
    | (Rejected e, w') => (Rejected e, w')
    end.

Declare Scope async_scope.
Delimit Scope async_scope with async.
Notation "'let*' x ':=' m 'in' k" := (bind m (fun x => k))
  (at level 10, x pattern, m at level 100, k at level 200) : async_scope.
Local Open Scope async_scope.

(** [await p]: suspend until [p] settles; its value, or its reason thrown. *)
Definition await {A} (p : Promise A) : Async A :=
  fun w => (outcome p, {| now := Nat.max (now w) (settled_at p); calls := calls w |}).

(** Calling an [async] function without awaiting it: the caller gets the
    promise of its completion at once and stays at its own instant. *)
Definition spawn {A} (body : Async A) : Async (Promise A) :=
  fun w =>
    let '(r, w') := body w in
    (Fulfilled {| settled_at := now w'; outcome := r |},
     {| now := now w; calls := calls w' |}).

(** A timer: [delay(ms)] fulfils [ms] milliseconds after it is created. *)
Definition delay (ms : nat) : Async (Promise unit) :=
  fun w => (Fulfilled {| settled_at := now w + ms; outcome := Fulfilled tt |}, w).

(** Invoking a route's loader at instant [t0]: the promise of its result and
    the calls it made, in the order they were issued. *)
Definition invoke {A} (f : Async A) (t0 : Time) : Promise A * list Call :=
  let '(r, w) := f {| now := t0; calls := [] |} in
  ({| settled_at := now w; outcome := r |}, calls w).

(** Modelled from the spec: [pMinDelay] is the default export of the
    [p-min-delay] package, which the route imports but whose source is not
    among the repository's files.  Following the design notes, it joins the promise with a
    floor timer started when it is called, so that the result settles once
    both the timer has fired and the promise has settled, and then settles
    the way the promise did. *)
Definition pMinDelay {A} (promise : Promise A) (minimumDelay : nat)
  : Async (Promise A) :=
  spawn (let* timer := delay minimumDelay in
         let* value := await (Promise_all (promise_catch promise) timer) in
         match fst value with
         | Fulfilled v => ret v
         | Rejected e => throw e
         end).

(* ===================================================================== *)
(** ** The data of the Rick and Morty API, as the route types it *)
(* ===================================================================== *)

(** [null] and [undefined] are [None]. *)
Definition Nullable (A : Type) : Type := option A.

Record NameOnly : Type := mkNameOnly { only_name : string }.

Record Character : Type := mkCharacter {
  character_name : string;
  character_id : string;
  character_gender : string;
  character_image : string;
  character_type : string;
  character_species : string;
  character_origin : NameOnly;
  character_location : NameOnly
}.

Record Resident : Type := mkResident {
  resident_name : string;
  resident_image : string
}.

Record Location : Type := mkLocation {
  location_name : string;
  location_residents : list Resident
}.

(** The placeholder episode carries three empty objects as its characters,
    so the properties of an episode's character may be missing. *)
Record EpisodeCharacter : Type := mkEpisodeCharacter {
  epchar_name : option string;
  epchar_image : option string;
  epchar_status : option string
}.

Record Episode : Type := mkEpisode {
  episode_name : string;
  episode_air_date : string;
  episode_id : string;
  episode_characters : list EpisodeCharacter
}.

(** The payloads of the three queries of the detail route:
    [{character: Character}], [{locations: {results: Location[]}}] and
    [{character: {episode: Episode[]}}].  The API answers [null] for what it
    does not find, whatever the TypeScript types promise. *)
Record CharacterData : Type := mkCharacterData {
  data_character : Nullable Character
}.

Record LocationsPage : Type := mkLocationsPage {
  results : Nullable (list Location)
}.

Record LocationsData : Type := mkLocationsData {
  data_locations : Nullable LocationsPage
}.

Record CharacterEpisodes : Type := mkCharacterEpisodes {
  episode : Nullable (list Episode)
}.

Record EpisodesData : Type := mkEpisodesData {
  data_episodes_character : Nullable CharacterEpisodes
}.

Record ListedCharacter : Type := mkListedCharacter {
  listed_name : string;
  listed_id : string
}.

Record CharactersPage : Type := mkCharactersPage {
  characters_results : Nullable (list ListedCharacter)
}.

Record CharactersData : Type := mkCharactersData {
  data_characters : Nullable CharactersPage
}.

(** What [query<T>(document, options)] resolves to: [json.data], which is
    missing when the API reports errors. *)
Definition ResultOf (d : Document) : Type :=
  match d with
  | CHARACTER_QUERY => Nullable CharacterData
  | CHARACTER_LOCATIONS_QUERY => Nullable LocationsData
  | DEFERRED_CHARACTER_EPISODES_QUERY => Nullable EpisodesData
  | CHARACTERS_QUERY => Nullable CharactersData
  end.

(** An answer of the gateway: how long the fetch takes and how it settles. *)
Record Reply (A : Type) : Type := mkReply {
  latency : nat;
  result : Settled A
}.

(** [context.rickAndMorty]: the answer to each query. *)
Definition Gateway : Type :=
  forall d : Document, QueryOptions -> Reply (ResultOf d).

(** [context.rickAndMorty.query(document, options)]: the call is issued at
    once and recorded; the promise settles after the fetch's latency. *)
Definition query (context : Gateway) (d : Document) (options : QueryOptions)
  : Async (Promise (ResultOf d)) :=
  fun w =>
    (Fulfilled {| settled_at := now w + latency (context d options);
                  outcome := result (context d options) |},
     {| now := now w;
        calls := calls w ++ [ {| call_at := now w;
                                 call_document := d;
                                 call_options := options |} ] |}).

(** Object destructuring [const {property} = value]: a [TypeError] when the
    value is [null] or [undefined]. *)
Definition destructure {A B} (value : Nullable A) (property : A -> B) : Async B :=
  match value with
  | Some object => ret (property object)
  | None => throw (TypeError "Cannot destructure property of null or undefined")
  end.

(* ===================================================================== *)
(** ** The loader of [characters.$id] *)
(* ===================================================================== *)

Record Params : Type := mkParams { id : option string }.

(** The argument of [defer]. *)
Record LoaderData : Type := mkLoaderData {
  character : Nullable Character;
  locations : Nullable LocationsPage;
  episodesPromise : Promise (Nullable EpisodesData)
}.

Definition defer (data : LoaderData) : Async LoaderData := ret data.

Definition by_id (params : Params) : QueryOptions :=
  {| variables := Some [("id", id params)]; cache := CacheNone |}.

Definition loader (context : Gateway) (params : Params) : Async LoaderData :=
  let* episodesFetch :=
    query context DEFERRED_CHARACTER_EPISODES_QUERY (by_id params) in
  let* episodesPromise := pMinDelay episodesFetch 2000 in
  let* characterPromise := query context CHARACTER_QUERY (by_id params) in
  let* locationsPromise :=
    query context CHARACTER_LOCATIONS_QUERY
      {| variables := Some []; cache := CacheNone |} in
  let* joined := await (Promise_all characterPromise locationsPromise) in
  let* character := destructure (fst joined) data_character in
  let* locations := destructure (snd joined) data_locations in
  defer {| character := character;
           locations := locations;
           episodesPromise := episodesPromise |}.

(** The loader of the listing route ([_index]). *)
Definition json {A} (data : A) : Async A := ret data.

Definition index_loader (context : Gateway) : Async (Nullable CharactersPage) :=
  let* charactersPromise :=
    query context CHARACTERS_QUERY {| variables := None; cache := CacheShort |} in
  let* data := await charactersPromise in
  let* characters := destructure data data_characters in
  json characters.

(** The two earlier forms of the detail route kept in the repository: the
    one that only awaits the character, and the one that defers the episodes
    without fetching the locations. *)
Module Earlier.

Definition loader_json (context : Gateway) (params : Params)
  : Async (Nullable Character) :=
  let* characterPromise := query context CHARACTER_QUERY (by_id params) in
  let* data := await characterPromise in
  let* character := destructure data data_character in
  json character.

Definition loader_defer (context : Gateway) (params : Params)
  : Async (Nullable Character * Promise (Nullable EpisodesData)) :=
  let* episodesFetch :=
    query context DEFERRED_CHARACTER_EPISODES_QUERY (by_id params) in
  let* episodesPromise := pMinDelay episodesFetch 2000 in
  let* characterPromise := query context CHARACTER_QUERY (by_id params) in
  let* data := await characterPromise in
  let* character := destructure data data_character in
  ret (character, episodesPromise).

End Earlier.

(* ===================================================================== *)
(** ** The components of [characters.$id] *)
(* ===================================================================== *)

(** A component either returns what it renders or throws while rendering. *)
Inductive Completion (A : Type) : Type :=
| Returned (value : A)
| Thrown (reason : JsError).
Arguments Thrown {A} reason.

(** [array.slice(start, end)] for indices that are natural numbers. *)
Definition slice {A} (array : list A) (start finish : nat) : list A :=
  firstn (finish - start) (skipn start array).

(** [new Array(n).fill(value)]. *)
Definition Array_fill {A} (n : nat) (value : A) : list A := repeat value n.

(** [value?.property] where the property itself may be missing. *)
Definition optional_chain {A B} (value : Nullable A) (property : A -> Nullable B)
  : Nullable B :=
  match value with
  | Some object => property object
  | None => None
  end.

(** Truthiness of a string and of [episodes?.length]. *)
Definition truthy_string (s : string) : bool := negb (s =? "").

Definition truthy_length (n : option nat) : bool :=
  match n with
  | Some (S _) => true
  | _ => false
  end.

(** One [<li>] of the episodes grid: its text and its background colour
    (the [key] is React's own and is not part of what is shown). *)
Record EpisodeItem : Type := mkEpisodeItem {
  item_text : string;
  item_backgroundColor : string
}.

(** What stands in the episodes section of the page. *)
Inductive EpisodesSection : Type :=
| ErrorElement (text : string)
| NoEpisodesElement (heading text : string)
| EpisodesGridElement (heading : string) (items : list EpisodeItem).

Definition placeholderEpisode : Episode :=
  {| episode_name := "Loading...";
     episode_air_date := "";
     episode_id := "";
     episode_characters :=
       [ mkEpisodeCharacter None None None;
         mkEpisodeCharacter None None None;
         mkEpisodeCharacter None None None ] |}.

Definition episode_li (episode : Episode) : EpisodeItem :=
  {| item_text := episode_name episode;
     item_backgroundColor :=
       if truthy_string (episode_id episode) then "white" else "#eee" |}.

Definition episodeNodes (episodes : option (list Episode)) : list Episode :=
  if negb (truthy_length (option_map (@length Episode) episodes))
  then Array_fill 4 placeholderEpisode
  else match episodes with
       | Some real => real
       | None => []
       end.

Definition EpisodesGrid (episodes : option (list Episode)) : EpisodesSection :=
  EpisodesGridElement "Episodes"
    (map episode_li (slice (episodeNodes episodes) 0 4)).

Definition NoEpisodes : EpisodesSection :=
  NoEpisodesElement "Episodes" "Whoops, no episodes found!".

(** The function given to [<Await>] as its children. *)
Definition Await_children (data : Nullable EpisodesData) : EpisodesSection :=
  match optional_chain (optional_chain data data_episodes_character) episode with
  | None => NoEpisodes
  | Some episodes => EpisodesGrid (Some episodes)
  end.

Definition errorElement : EpisodesSection :=
  ErrorElement "There was an error while fetching the episodes".

(** [<Suspense fallback={<EpisodesGrid />}><Await resolve=... errorElement=...>]
    rendered at instant [t]. *)
Definition Suspense_Await (resolve : Promise (Nullable EpisodesData)) (t : Time)
  : EpisodesSection :=
  match state_at resolve t with
  | Pending => EpisodesGrid None
  | Done (Rejected _) => errorElement
  | Done (Fulfilled data) => Await_children data
  end.

(** The [<p>] of each location shown. *)
Definition Locations (locations : list Location) : list string :=
  map location_name (slice locations 0 6).

Record Page : Type := mkPage {
  page_heading : string;
  page_image : string * string;           (* src, alt *)
  page_facts : list (string * string);
  page_locations : list string;
  page_episodes : EpisodesSection
}.

Definition character_facts (character : Character) : list (string * string) :=
  (if truthy_string (character_type character)
   then [("Type:", character_type character)] else [])
  ++ [ ("Species:", character_species character);
       ("Gender:", character_gender character);
       ("Origin:", only_name (character_origin character));
       ("Location:", only_name (character_location character)) ].

(** The default export: the page rendered from the loader's data at
    instant [t].  Reading a property of [null] throws.  The character's
    origin and location and the entries of the results are taken as their
    types give them, never [null]. *)
Definition CharacterPage (data : LoaderData) (t : Time) : Completion Page :=
  match character data with
  | None => Thrown (TypeError "Cannot read properties of null (reading 'name')")
  | Some character =>
      match locations data with
      | None =>
          Thrown (TypeError "Cannot read properties of null (reading 'results')")
      | Some page =>
          match results page with
          | None =>
              Thrown (TypeError "Cannot read properties of null (reading 'slice')")
          | Some shown =>
              Returned
                {| page_heading := character_name character;
                   page_image := (character_image character,
                                  character_name character);
                   page_facts := character_facts character;
                   page_locations := Locations shown;
                   page_episodes :=
                     Suspense_Await (episodesPromise data) t |}
          end
      end
  end.

Unset Implicit Arguments.

(* ===================================================================== *)
(** ** One invocation in closed form; sample requests and gateways *)
(* ===================================================================== *)

Definition locations_options : QueryOptions :=
  {| variables := Some []; cache := CacheNone |}.

(** The three answers the loader depends on. *)
Definition episodes_reply (context : Gateway) (params : Params)
  : Reply (Nullable EpisodesData) :=
  context DEFERRED_CHARACTER_EPISODES_QUERY (by_id params).

Definition character_reply (context : Gateway) (params : Params)
  : Reply (Nullable CharacterData) :=
  context CHARACTER_QUERY (by_id params).

Definition locations_reply (context : Gateway)
  : Reply (Nullable LocationsData) :=
  context CHARACTER_LOCATIONS_QUERY locations_options.

(** The deferred handle the loader builds when invoked at [t0]. *)
Definition deferred_handle (context : Gateway) (params : Params) (t0 : Time)
  : Promise (Nullable EpisodesData) :=
  {| settled_at := t0 + Nat.max 2000 (latency (episodes_reply context params));
     outcome := result (episodes_reply context params) |}.

(** The part of the loader's result that the critical path determines. *)
Definition critical_result (r : Settled LoaderData)
  : Settled (Nullable Character * Nullable LocationsPage) :=
  match r with
  | Fulfilled data => Fulfilled (character data, locations data)
  | Rejected e => Rejected e
  end.

(** The join of the two critical fetches issued at [t0]. *)
Definition critical_join (rc : Reply (Nullable CharacterData))
           (rl : Reply (Nullable LocationsData)) (t0 : Time)
  : Promise (Nullable CharacterData * Nullable LocationsData) :=
  Promise_all {| settled_at := t0 + latency rc; outcome := result rc |}
              {| settled_at := t0 + latency rl; outcome := result rl |}.

(** The promise an invocation of the loader at [t0] yields, in closed form. *)
Definition loader_promise (context : Gateway) (params : Params) (t0 : Time)
  : Promise LoaderData :=
  let joined :=
    critical_join (character_reply context params) (locations_reply context) t0 in
  {| settled_at := Nat.max t0 (settled_at joined);
     outcome :=
       match outcome joined with
       | Fulfilled (Some cd, Some ld) =>
           Fulfilled {| character := data_character cd;
                        locations := data_locations ld;
                        episodesPromise := deferred_handle context params t0 |}
       | Fulfilled _ =>
           Rejected (TypeError "Cannot destructure property of null or undefined")
       | Rejected e => Rejected e
       end |}.

Module Sample.

Definition morty : Character :=
  {| character_name := "Morty Smith";
     character_id := "2";
     character_gender := "Male";
     character_image := "https://rickandmortyapi.com/api/character/avatar/2.jpeg";
     character_type := "";
     character_species := "Human";
     character_origin := mkNameOnly "unknown";
     character_location := mkNameOnly "Citadel of Ricks" |}.

Definition place (n : string) : Location :=
  {| location_name := n; location_residents := [] |}.

Definition seven_places : list Location :=
  map place ["Earth (C-137)"; "Abadango"; "Citadel of Ricks";
             "Worldender's lair"; "Anatomy Park"; "Interdimensional Cable";
             "Immortality Field Resort"].

Definition ep (i n : string) : Episode :=
  {| episode_name := n; episode_air_date := "December 2, 2013";
     episode_id := i; episode_characters := [] |}.

Definition five_episodes : list Episode :=
  [ ep "1" "Pilot"; ep "2" "Lawnmower Dog"; ep "3" "Anatomy Park";
    ep "4" "M. Night Shaym-Aliens!"; ep "5" "Meeseeks and Destroy" ].

Definition character_found : Settled (Nullable CharacterData) :=
  Fulfilled (Some {| data_character := Some morty |}).

Definition character_null : Settled (Nullable CharacterData) :=
  Fulfilled (Some {| data_character := None |}).

Definition locations_found : Settled (Nullable LocationsData) :=
  Fulfilled (Some {| data_locations :=
                       Some {| results := Some seven_places |} |}).

Definition episodes_of (l : list Episode) : Nullable EpisodesData :=
  Some {| data_episodes_character := Some {| episode := Some l |} |}.

Definition episodes_found : Settled (Nullable EpisodesData) :=
  Fulfilled (episodes_of five_episodes).

(** A gateway that answers the three queries of the detail route with the
    given replies, whatever the options. *)
Definition gateway (re : Reply (Nullable EpisodesData))
           (rc : Reply (Nullable CharacterData))
           (rl : Reply (Nullable LocationsData)) : Gateway :=
  fun d _ =>
    match d as d' return Reply (ResultOf d') with
    | CHARACTER_QUERY => rc
    | CHARACTER_LOCATIONS_QUERY => rl
    | DEFERRED_CHARACTER_EPISODES_QUERY => re
    | CHARACTERS_QUERY => mkReply 30 (Fulfilled None)
    end.

(** Everything is found; the episodes come back after 5 ms. *)
Definition fast_episodes : Gateway :=
  gateway (mkReply 5 episodes_found)
          (mkReply 40 character_found) (mkReply 60 locations_found).

(** The critical fetches take 3 s, longer than the padded episodes. *)
Definition slow_critical : Gateway :=
  gateway (mkReply 5 episodes_found)
          (mkReply 3000 character_found) (mkReply 60 locations_found).

(** The episodes fetch is refused by the upstream. *)
Definition failing_episodes : Gateway :=
  gateway (mkReply 70 (Rejected (Error "Error fetching from rick and morty api: Bad Gateway")))
          (mkReply 40 character_found) (mkReply 60 locations_found).

(** The character fetch is refused by the upstream. *)
Definition failing_character : Gateway :=
  gateway (mkReply 5 episodes_found)
          (mkReply 40 (Rejected (Error "Error fetching from rick and morty api: Bad Gateway")))
          (mkReply 60 locations_found).

(** No character has the requested identifier: the API answers
    [{character: null}] to both character queries. *)
Definition unknown_character : Gateway :=
  gateway (mkReply 5 (Fulfilled (Some {| data_episodes_character := None |})))
          (mkReply 40 character_null) (mkReply 60 locations_found).

Definition request_2 : Params := {| id := Some "2" |}.
Definition request_999999 : Params := {| id := Some "999999" |}.
Definition request_without_id : Params := {| id := None |}.

End Sample.

Module SampleRuns.
Import Sample.

(** What the loader hands over for request "2" answered by [fast_episodes]
    or by [slow_critical]. *)
Definition data_2 : LoaderData :=
  {| character := Some morty;
     locations := Some {| results := Some seven_places |};
     episodesPromise := mkPromise 2000 episodes_found |}.

End SampleRuns.

(** The part of a rendered page that comes from the critical result. *)
Definition critical_view (rendered : Completion Page)
  : Completion (string * (string * string) * list (string * string) * list string) :=
  match rendered with
  | Returned page =>
      Returned (page_heading page, page_image page, page_facts page,
                page_locations page)
  | Thrown e => Thrown e
  end.

Definition placeholder_li : EpisodeItem :=
  {| item_text := "Loading..."; item_backgroundColor := "#eee" |}.

Module StrictApi.
Import Sample.

Definition bad_request {A} : Reply A :=
  mkReply 40 (Rejected (Error "Error fetching from rick and morty api: Bad Request")).

Definition has_id (options : QueryOptions) : bool :=
  match variables options with
  | Some [(_, Some _)] => true
  | _ => false
  end.

(** An upstream that refuses a query on a character when the [id]
    variable is missing, and answers everything else. *)
Definition gateway : Gateway :=
  fun d options =>
    match d as d' return Reply (ResultOf d') with
    | CHARACTER_QUERY =>
        if has_id options then mkReply 40 character_found else bad_request
    | CHARACTER_LOCATIONS_QUERY => mkReply 60 locations_found
    | DEFERRED_CHARACTER_EPISODES_QUERY =>
        if has_id options then mkReply 5 episodes_found else bad_request
    | CHARACTERS_QUERY => mkReply 30 (Fulfilled None)
    end.

End StrictApi.

(** A fetch is keyed by the request when its [variables] carry a property. *)
Definition keyed_by_request (options : QueryOptions) : bool :=
  match variables options with
  | Some (_ :: _) => true
  | _ => false
  end.

(** The policy the interface description prescribes for a fetch (a reading
    of the description, not of the code): no cache for a fetch keyed by the
    request, a short-lived or long-lived cache otherwise. *)
Definition prescribed_policy (c : Call) : bool :=
  if keyed_by_request (call_options c)
  then match cache (call_options c) with
       | CacheNone => true
       | _ => false
       end
  else match cache (call_options c) with
       | CacheNone => false
       | _ => true
       end.

(** What the loaders that only await the character settle with. *)
Definition character_only (context : Gateway) (params : Params)
  : Settled (Nullable Character) :=
  match result (character_reply context params) with
  | Fulfilled (Some data) => Fulfilled (data_character data)
  | Fulfilled None =>
      Rejected (TypeError "Cannot destructure property of null or undefined")
  | Rejected e => Rejected e
  end.

(** The answer the listing route's loader depends on. *)
Definition characters_reply (context : Gateway)
  : Reply (Nullable CharactersData) :=
  context CHARACTERS_QUERY {| variables := None; cache := CacheShort |}.

(* ===================================================================== *)
(** ** The listing route's component and the earlier detail pages *)
(* ===================================================================== *)

(** One [<Link>] of the listing: its target, its [prefetch] attribute when
    it has one, and its text. *)
Record CharacterLink : Type := mkCharacterLink {
  link_to : string;
  link_prefetch : option string;
  link_text : string
}.

(** [value || []] for a value that is an array, [null] or [undefined]. *)
Definition or_empty {A} (value : Nullable (list A)) : list A :=
  match value with
  | Some array => array
  | None => []
  end.

Definition character_link (prefetch : option string) (listed : ListedCharacter)
  : CharacterLink :=
  {| link_to := "/characters/" ++ listed_id listed;
     link_prefetch := prefetch;
     link_text := listed_name listed |}.

Definition Homepage_with (prefetch : option string)
           (characters : Nullable CharactersPage)
  : Completion (list CharacterLink) :=
  match characters with
  | None =>
      Thrown (TypeError "Cannot read properties of null (reading 'results')")
  | Some page =>
      Returned (map (character_link prefetch)
                    (or_empty (characters_results page)))
  end.

(** The default export of the listing route, with [prefetch="intent"]. *)
Definition Homepage (characters : Nullable CharactersPage)
  : Completion (list CharacterLink) :=
  Homepage_with (Some "intent") characters.

Module EarlierPages.

(** The listing of the first form of the repository: plain links. *)
Definition Homepage (characters : Nullable CharactersPage)
  : Completion (list CharacterLink) :=
  Homepage_with None characters.

(** The detail page that goes with [Earlier.loader_defer]: the character
    and the episodes section, no locations. *)
Definition CharacterPage (data : Nullable Character * Promise (Nullable EpisodesData))
           (t : Time) : Completion Page :=
  match fst data with
  | None => Thrown (TypeError "Cannot read properties of null (reading 'name')")
  | Some character =>
      Returned
        {| page_heading := character_name character;
           page_image := (character_image character, character_name character);
           page_facts := character_facts character;
           page_locations := [];
           page_episodes := Suspense_Await (snd data) t |}
  end.

End EarlierPages.

(* ===================================================================== *)
(** ** The client's call to the API *)
(* ===================================================================== *)

Module Client.

Set Implicit Arguments.

Definition tag : string := "#graphql:rickAndMorty".

Definition endpoint : string := "https://rickandmortyapi.com/graphql".

Fixpoint drop (n : nat) (s : string) : string :=
  match n, s with
  | S m, String _ rest => drop m rest
  | _, _ => s
  end.

(** [s.replace(pattern, replacement)] for a string pattern and a
    replacement without [$]: the first occurrence only. *)
Fixpoint replace (s pattern replacement : string) : string :=
  if String.prefix pattern s
  then replacement ++ drop (String.length pattern) s
  else match s with
       | EmptyString => EmptyString
       | String c rest => String c (replace rest pattern replacement)
       end.

(** The object given to [JSON.stringify] as the body of the request, before
    it is serialized (serialization leaves out a property whose value is
    [undefined]). *)
Record RequestBody : Type := mkRequestBody {
  body_query : string;
  body_variables : option Variables
}.

Record RequestInit : Type := mkRequestInit {
  method : string;
  headers : list (string * string);
  body : RequestBody
}.

(** What [response.json()] gives: [{data, error}]. *)
Record ResponseJson (A : Type) : Type := mkResponseJson {
  json_data : Nullable A;
  json_error : option string
}.

Record Response (A : Type) : Type := mkResponse {
  ok : bool;
  statusText : string;
  json_reply : Reply (ResponseJson A)
}.

(** The platform's [fetch]: the answer to a request. *)
Definition Fetch (A : Type) : Type := string -> RequestInit -> Reply (Response A).

(** Starting an operation whose answer is known: its promise settles after
    the answer's latency. *)
Definition start {A} (answer : Reply A) : Async (Promise A) :=
  fun w => (Fulfilled {| settled_at := now w + latency answer;
                         outcome := result answer |}, w).

Definition request_init (query : string) (options : QueryOptions) : RequestInit :=
  {| method := "POST";
     headers := [("Content-type", "application/json")];
     body := {| body_query := replace query tag "";
                body_variables := variables options |} |}.

(** The [async function] that [query] hands to [withCache]. *)
Definition call_api {A} (fetch : Fetch A) (query : string) (options : QueryOptions)
  : Async (Nullable A) :=
  let* responsePromise := start (fetch endpoint (request_init query options)) in
  let* response := await responsePromise in
  if negb (ok response)
  then throw (Error ("Error fetching from rick and morty api: "
                       ++ statusText response))
  else
    let* jsonPromise := start (json_reply response) in
    let* parsed := await jsonPromise in
    ret (json_data parsed).


Unset Implicit Arguments.

End Client.

(* ===================================================================== *)
(** ** Symbolic execution of the loader *)
(* ===================================================================== *)

Lemma pMinDelay_run A (promise : Promise A) (minimumDelay : nat) (w : World) :
  pMinDelay promise minimumDelay w =
  (Fulfilled {| settled_at :=
                  Nat.max (now w)
                    (Nat.max (settled_at promise) (now w + minimumDelay));
                outcome := outcome promise |},
   {| now := now w; calls := calls w |}).
Proof.
  unfold pMinDelay, spawn, delay, await, bind, Promise_all, promise_catch.
  simpl. destruct (outcome promise); reflexivity.
Qed.

Lemma floor_instant (t0 d : nat) :
  Nat.max t0 (Nat.max (t0 + d) (t0 + 2000)) = t0 + Nat.max 2000 d.
Proof. lia. Qed.

Lemma join_instant (t0 a b : nat) :
  Nat.max t0 (Nat.max (t0 + a) (t0 + b)) = t0 + Nat.max a b.
Proof. lia. Qed.

(** Runs the body of the loader symbolically, down to the case analysis on
    the answers of the two critical fetches. *)
Ltac run_loader ctx ps :=
  unfold invoke, loader, bind at 1 2; unfold query at 1; cbn iota beta;
  rewrite pMinDelay_run;
  unfold query, await, defer, destructure, bind, ret, throw, Promise_all;
  cbn [now calls settled_at outcome fst snd app];
  change (ctx CHARACTER_QUERY (by_id ps))
    with (character_reply ctx ps);
  change (ctx CHARACTER_LOCATIONS_QUERY
            {| variables := Some []; cache := CacheNone |})
    with (locations_reply ctx);
  change (ctx DEFERRED_CHARACTER_EPISODES_QUERY (by_id ps))
    with (episodes_reply ctx ps);
  cbn [ResultOf] in *.

(** Symbolic execution of the loader.  Its calls do not depend on any
    answer: the three queries are issued at the instant of the invocation,
    before anything is awaited. *)
Lemma invoke_loader (context : Gateway) (params : Params) (t0 : Time) :
  invoke (loader context params) t0 =
  (loader_promise context params t0,
   [ mkCall t0 DEFERRED_CHARACTER_EPISODES_QUERY (by_id params);
     mkCall t0 CHARACTER_QUERY (by_id params);
     mkCall t0 CHARACTER_LOCATIONS_QUERY locations_options ]).
Proof.
  unfold loader_promise, critical_join, deferred_handle, Promise_all.
  run_loader constr:(context) params.
  destruct (result (character_reply context params)) as [[cd|]|ec];
    destruct (result (locations_reply context)) as [[ld|]|el];
    cbn; rewrite ?floor_instant; try reflexivity;
    destruct (_ <=? _)%nat; reflexivity.
Qed.

(** When both critical fetches fulfil with a payload, the loader returns at
    the later of the two, with the handle built at the start. *)
Lemma loader_returns (context : Gateway) (params : Params) (t0 : Time)
      (cd : CharacterData) (ld : LocationsData) :
  result (character_reply context params) = Fulfilled (Some cd) ->
  result (locations_reply context) = Fulfilled (Some ld) ->
  fst (invoke (loader context params) t0) =
  {| settled_at :=
       t0 + Nat.max (latency (character_reply context params))
                    (latency (locations_reply context));
     outcome :=
       Fulfilled {| character := data_character cd;
                    locations := data_locations ld;
                    episodesPromise := deferred_handle context params t0 |} |}.
Proof.
  intros Hc Hl. rewrite invoke_loader.
  unfold loader_promise, critical_join, Promise_all. cbn.
  rewrite Hc, Hl. cbn. rewrite join_instant. reflexivity.
Qed.

(** A rejected critical fetch rejects the loader, with the reason of one of
    the two fetches. *)
Lemma loader_rejects (context : Gateway) (params : Params) (t0 : Time) :
  (exists e, result (character_reply context params) = Rejected e) \/
  (exists e, result (locations_reply context) = Rejected e) ->
  exists e,
    outcome (fst (invoke (loader context params) t0)) = Rejected e /\
    (result (character_reply context params) = Rejected e \/
     result (locations_reply context) = Rejected e).
Proof.
  intros H. rewrite invoke_loader.
  unfold loader_promise, critical_join, Promise_all. cbn.
  destruct (result (character_reply context params)) as [cd|ec];
    destruct (result (locations_reply context)) as [ld|el];
    cbn.
  - destruct H as [[e He]|[e He]]; discriminate.
  - eauto.
  - eauto.
  - destruct (_ <=? _)%nat; cbn; eauto.
Qed.

(** Whenever the loader returns, both critical fetches had fulfilled with a
    payload, it returns at the later of the two, and the handle it hands over
    is the one built at the start of the invocation. *)
Lemma loader_returned_inv (context : Gateway) (params : Params) (t0 tr : Time)
      (data : LoaderData) :
  fst (invoke (loader context params) t0) = mkPromise tr (Fulfilled data) ->
  (exists cd ld,
      result (character_reply context params) = Fulfilled (Some cd) /\
      result (locations_reply context) = Fulfilled (Some ld) /\
      character data = data_character cd /\
      locations data = data_locations ld) /\
  tr = t0 + Nat.max (latency (character_reply context params))
                    (latency (locations_reply context)) /\
  episodesPromise data = deferred_handle context params t0.
Proof.
  rewrite invoke_loader.
  unfold loader_promise, critical_join, Promise_all. cbn.
  destruct (result (character_reply context params)) as [[cd|]|ec];
    destruct (result (locations_reply context)) as [[ld|]|el];
    cbn; try discriminate;
    try (destruct (_ <=? _)%nat; cbn; discriminate).
  intros H. injection H as <- <-. cbn.
  rewrite join_instant. eauto 10.
Qed.

(** Two gateways that answer the critical queries alike make the loader
    settle at the same instant with the same critical result, whatever they
    answer to the deferred query. *)
Lemma loader_ignores_deferred (context other : Gateway) (params : Params)
      (t0 : Time) :
  character_reply other params = character_reply context params ->
  locations_reply other = locations_reply context ->
  settled_at (fst (invoke (loader other params) t0)) =
  settled_at (fst (invoke (loader context params) t0)) /\
  critical_result (outcome (fst (invoke (loader other params) t0))) =
  critical_result (outcome (fst (invoke (loader context params) t0))).
Proof.
  intros Hc Hl. rewrite !invoke_loader.
  unfold loader_promise. cbn. rewrite Hc, Hl. split; [reflexivity|].
  destruct (outcome (critical_join _ _ _)) as [[[cd|] [ld|]]|e]; reflexivity.
Qed.

(* ===================================================================== *)
(** ** Instants and the page *)
(* ===================================================================== *)

Lemma state_at_pending A (p : Promise A) (t : Time) :
  state_at p t = Pending <-> t < settled_at p.
Proof.
  unfold state_at. destruct (Nat.ltb_spec t (settled_at p)); split;
    intros; try reflexivity; try assumption; try discriminate; lia.
Qed.

Lemma state_at_done A (p : Promise A) (t : Time) :
  settled_at p <= t -> state_at p t = Done (outcome p).
Proof.
  unfold state_at. destruct (Nat.ltb_spec t (settled_at p)); [lia | reflexivity].
Qed.

Lemma critical_view_any_instant (data : LoaderData) (t t' : Time) :
  critical_view (CharacterPage data t) = critical_view (CharacterPage data t').
Proof.
  unfold CharacterPage.
  destruct (character data); [|reflexivity].
  destruct (locations data) as [page|]; [|reflexivity].
  destruct (results page); reflexivity.
Qed.

(* ===================================================================== *)
(** ** The composer: floor, independence, join and containment *)
(* ===================================================================== *)

(** C1.  The handle the loader hands over settles exactly at the later of
    the 2000 ms floor and the episodes fetch's own duration, both counted
    from the invocation: a fetch faster than the floor is padded to the
    floor, a slower one adds nothing, and the handle is pending at every
    earlier instant.  It settles the way the fetch did. *)
Theorem deferred_handle_settles_at_floor_or_fetch
        (context : Gateway) (params : Params) (t0 tr : Time) (data : LoaderData) :
  fst (invoke (loader context params) t0) = mkPromise tr (Fulfilled data) ->
  settled_at (episodesPromise data) =
    t0 + Nat.max 2000 (latency (episodes_reply context params)) /\
  outcome (episodesPromise data) = result (episodes_reply context params) /\
  (latency (episodes_reply context params) <= 2000 ->
   settled_at (episodesPromise data) = t0 + 2000) /\
  (2000 <= latency (episodes_reply context params) ->
   settled_at (episodesPromise data) =
     t0 + latency (episodes_reply context params)) /\
  (forall t, state_at (episodesPromise data) t = Pending <->
             t < t0 + Nat.max 2000 (latency (episodes_reply context params))).
Proof.
  intros H. apply loader_returned_inv in H as (_ & _ & ->).
  unfold deferred_handle. cbn [settled_at outcome].
  repeat split; try lia.
  - apply state_at_pending.
  - intros Ht. apply state_at_pending. exact Ht.
Qed.

Lemma deferred_handle_settles_at_floor_or_fetch_witness :
  fst (invoke (loader Sample.fast_episodes Sample.request_2) 0) =
    mkPromise 60 (Fulfilled SampleRuns.data_2) /\
  settled_at (episodesPromise SampleRuns.data_2) = 2000.
Proof.
  split.
  - reflexivity.
  - exact (proj1 (deferred_handle_settles_at_floor_or_fetch
                    Sample.fast_episodes Sample.request_2 0 60
                    SampleRuns.data_2 eq_refl)).
Defined.

(** C2, as stated, fails: when the critical fetches take 3000 ms and the
    episodes come back after 5 ms, the loader returns at 3000 ms with a
    handle that settled at 2000 ms, so the handle is not pending when it is
    handed over. *)
Lemma handle_settled_before_handover :
  fst (invoke (loader Sample.slow_critical Sample.request_2) 0) =
    mkPromise 3000 (Fulfilled SampleRuns.data_2) /\
  state_at (episodesPromise SampleRuns.data_2) 3000 = Done Sample.episodes_found /\
  state_at (episodesPromise SampleRuns.data_2) 3000 <> Pending.
Proof.
  split; [reflexivity|]. split; [reflexivity|]. discriminate.
Qed.

(** C2, amended.  The instant at which the loader settles and its critical
    result depend on the answers to the two critical queries only: any
    gateway that answers them alike gives the same instant and the same
    critical result, whatever the deferred fetch does.  When the loader
    returns, it does so exactly when the later critical fetch resolves, and
    the handle is pending at that instant exactly when the critical fetches
    were faster than the padded deferred fetch. *)
Theorem compose_return_ignores_deferred
        (context : Gateway) (params : Params) (t0 : Time) :
  (forall other : Gateway,
      character_reply other params = character_reply context params ->
      locations_reply other = locations_reply context ->
      settled_at (fst (invoke (loader other params) t0)) =
      settled_at (fst (invoke (loader context params) t0)) /\
      critical_result (outcome (fst (invoke (loader other params) t0))) =
      critical_result (outcome (fst (invoke (loader context params) t0)))) /\
  (forall (tr : Time) (data : LoaderData),
      fst (invoke (loader context params) t0) = mkPromise tr (Fulfilled data) ->
      tr = t0 + Nat.max (latency (character_reply context params))
                        (latency (locations_reply context)) /\
      (state_at (episodesPromise data) tr = Pending <->
       Nat.max (latency (character_reply context params))
               (latency (locations_reply context))
       < Nat.max 2000 (latency (episodes_reply context params)))).
Proof.
  split.
  - intros other Hc Hl. apply loader_ignores_deferred; assumption.
  - intros tr data H. apply loader_returned_inv in H as (_ & -> & ->).
    split; [reflexivity|].
    rewrite state_at_pending. unfold deferred_handle. cbn [settled_at]. lia.
Qed.

Lemma compose_return_ignores_deferred_witness :
  settled_at (fst (invoke (loader Sample.failing_episodes Sample.request_2) 0)) =
  settled_at (fst (invoke (loader Sample.fast_episodes Sample.request_2) 0)) /\
  (state_at (episodesPromise SampleRuns.data_2) 60 = Pending <-> 60 < 2000).
Proof.
  split.
  - exact (proj1 (proj1 (compose_return_ignores_deferred
                           Sample.fast_episodes Sample.request_2 0)
                        Sample.failing_episodes eq_refl eq_refl)).
  - exact (proj2 (proj2 (compose_return_ignores_deferred
                           Sample.fast_episodes Sample.request_2 0)
                        60 SampleRuns.data_2 eq_refl)).
Defined.

(** C3.  The character fetch and the locations fetch are both issued at the
    instant of the invocation, before anything is awaited; when both fulfil
    with a payload the loader returns exactly when the later of the two
    resolves, with the character and the locations together; and when either
    of them rejects the loader rejects with the reason of one of them, so
    that no critical result, partial or not, comes out. *)
Theorem critical_fetches_fan_out_and_join
        (context : Gateway) (params : Params) (t0 : Time) :
  snd (invoke (loader context params) t0) =
    [ mkCall t0 DEFERRED_CHARACTER_EPISODES_QUERY (by_id params);
      mkCall t0 CHARACTER_QUERY (by_id params);
      mkCall t0 CHARACTER_LOCATIONS_QUERY locations_options ] /\
  (forall (cd : CharacterData) (ld : LocationsData),
      result (character_reply context params) = Fulfilled (Some cd) ->
      result (locations_reply context) = Fulfilled (Some ld) ->
      settled_at (fst (invoke (loader context params) t0)) =
        t0 + Nat.max (latency (character_reply context params))
                     (latency (locations_reply context)) /\
      critical_result (outcome (fst (invoke (loader context params) t0))) =
        Fulfilled (data_character cd, data_locations ld)) /\
  ((exists e, result (character_reply context params) = Rejected e) \/
   (exists e, result (locations_reply context) = Rejected e) ->
   exists e,
     outcome (fst (invoke (loader context params) t0)) = Rejected e /\
     critical_result (outcome (fst (invoke (loader context params) t0))) =
       Rejected e /\
     (result (character_reply context params) = Rejected e \/
      result (locations_reply context) = Rejected e)).
Proof.
  split; [|split].
  - rewrite invoke_loader. reflexivity.
  - intros cd ld Hc Hl. rewrite (loader_returns context params t0 cd ld Hc Hl). split; reflexivity.
  - intros H. destruct (loader_rejects context params t0 H) as (e & He & Hwho).
    exists e. rewrite He. auto.
Qed.

Lemma critical_fetches_fan_out_and_join_witness :
  exists e,
    outcome (fst (invoke (loader Sample.failing_character Sample.request_2) 0)) =
    Rejected e.
Proof.
  destruct (proj2 (proj2 (critical_fetches_fan_out_and_join
                            Sample.failing_character Sample.request_2 0))
                  (or_introl (ex_intro _ _ eq_refl)))
    as (e & He & _).
  exists e. exact He.
Defined.

(** C4.  When the episodes fetch rejects while the critical fetches fulfil,
    the loader still returns the character and the locations, at the
    instant the critical fetches alone decide; the rejection is carried by
    the handle only; once the handle has settled the episodes section is the
    error paragraph (which is neither the "no episodes" state nor a grid)
    and before that the placeholder grid; and the part of the page rendered
    from the critical result is the same at every instant, so a page that
    rendered keeps rendering. *)
Theorem deferred_rejection_stays_in_the_handle
        (context : Gateway) (params : Params) (t0 : Time) (e : JsError)
        (cd : CharacterData) (ld : LocationsData) :
  result (episodes_reply context params) = Rejected e ->
  result (character_reply context params) = Fulfilled (Some cd) ->
  result (locations_reply context) = Fulfilled (Some ld) ->
  exists data : LoaderData,
    fst (invoke (loader context params) t0) =
      mkPromise (t0 + Nat.max (latency (character_reply context params))
                              (latency (locations_reply context)))
                (Fulfilled data) /\
    character data = data_character cd /\
    locations data = data_locations ld /\
    outcome (episodesPromise data) = Rejected e /\
    (forall t, settled_at (episodesPromise data) <= t ->
               Suspense_Await (episodesPromise data) t = errorElement) /\
    (forall t, t < settled_at (episodesPromise data) ->
               Suspense_Await (episodesPromise data) t = EpisodesGrid None) /\
    (forall t t', critical_view (CharacterPage data t) =
                  critical_view (CharacterPage data t')) /\
    (forall t page, settled_at (episodesPromise data) <= t ->
                    CharacterPage data t = Returned page ->
                    page_episodes page = errorElement) /\
    errorElement <> NoEpisodes /\
    (forall episodes, errorElement <> EpisodesGrid episodes).
Proof.
  intros He Hc Hl.
  eexists. split; [apply (loader_returns context params t0 cd ld Hc Hl)|].
  cbn [character locations episodesPromise].
  assert (Hout : outcome (deferred_handle context params t0) = Rejected e)
    by (unfold deferred_handle; cbn; exact He).
  assert (Hlate : forall t, settled_at (deferred_handle context params t0) <= t ->
            Suspense_Await (deferred_handle context params t0) t = errorElement).
  { intros t Ht. unfold Suspense_Await.
    rewrite (state_at_done _ _ _ Ht), Hout. reflexivity. }
  repeat split; auto.
  - intros t Ht. unfold Suspense_Await.
    rewrite (proj2 (state_at_pending _ _ _) Ht). reflexivity.
  - intros t t'. apply critical_view_any_instant.
  - intros t page Ht. unfold CharacterPage. cbn [character locations episodesPromise].
    destruct (data_character cd); [|discriminate].
    destruct (data_locations ld) as [lp|]; [|discriminate].
    destruct (results lp); [|discriminate].
    intros H. injection H as <-. cbn [page_episodes]. apply Hlate, Ht.
  - discriminate.
  - intros episodes. discriminate.
Qed.

Lemma deferred_rejection_stays_in_the_handle_witness :
  exists data : LoaderData,
    fst (invoke (loader Sample.failing_episodes Sample.request_2) 0) =
      mkPromise 60 (Fulfilled data) /\
    Suspense_Await (episodesPromise data) 2000 = errorElement.
Proof.
  destruct (deferred_rejection_stays_in_the_handle
              Sample.failing_episodes Sample.request_2 0 _ _ _
              eq_refl eq_refl eq_refl)
    as (data & Hrun & _ & _ & _ & Hlate & _).
  exists data. split; [exact Hrun|].
  apply Hlate. rewrite (proj2 (proj2 (loader_returned_inv _ _ _ _ _ Hrun))).
  cbn. lia.
Defined.

(* ===================================================================== *)
(** ** The renderer: placeholders, cap, empty and failed states *)
(* ===================================================================== *)

Lemma slice_from_start A (array : list A) (n : nat) :
  slice array 0 n = firstn n array.
Proof. unfold slice. rewrite Nat.sub_0_r. reflexivity. Qed.

Lemma EpisodesGrid_fallback :
  EpisodesGrid None = EpisodesGridElement "Episodes" (repeat placeholder_li 4).
Proof. reflexivity. Qed.

Lemma EpisodesGrid_real (episodes : list Episode) :
  episodes <> [] ->
  EpisodesGrid (Some episodes) =
  EpisodesGridElement "Episodes" (map episode_li (firstn 4 episodes)).
Proof.
  intros Hne. unfold EpisodesGrid, episodeNodes.
  destruct episodes as [|e rest]; [contradiction|].
  cbn [option_map length truthy_length negb]. rewrite slice_from_start.
  reflexivity.
Qed.

(** An absent payload ([data], [data.character] or [data.character.episode]
    missing) gives the "no episodes" state, which is neither the grid nor
    the error paragraph. *)
Lemma absent_episodes_show_NoEpisodes (data : Nullable EpisodesData) :
  optional_chain (optional_chain data data_episodes_character) episode = None ->
  Await_children data = NoEpisodes /\
  NoEpisodes <> errorElement /\
  NoEpisodes <> EpisodesGrid None.
Proof.
  intros H. unfold Await_children. rewrite H.
  repeat split; discriminate.
Qed.

(** C5, at the failing input.  A handle fulfilled with [{character:
    {episode: []}}] does not give the "no episodes" state: the children of
    [<Await>] pass the empty array on to the grid, which fills itself with
    the four "Loading..." placeholders, exactly what was shown while the
    handle was pending. *)
Theorem empty_episode_list_shows_placeholders :
  Await_children (Sample.episodes_of []) =
    EpisodesGridElement "Episodes" (repeat placeholder_li 4) /\
  Await_children (Sample.episodes_of []) <> NoEpisodes /\
  Suspense_Await (mkPromise 2000 (Fulfilled (Sample.episodes_of []))) 2000 =
  Suspense_Await (mkPromise 2000 (Fulfilled (Sample.episodes_of []))) 0.
Proof.
  split; [reflexivity|]. split; [discriminate|reflexivity].
Qed.

Lemma episode_li_shown (e : Episode) :
  episode_li e =
  {| item_text := episode_name e;
     item_backgroundColor :=
       if (episode_id e =? "")%string then "#eee" else "white" |}.
Proof.
  unfold episode_li, truthy_string.
  destruct (episode_id e =? "")%string; reflexivity.
Qed.

(** C6.  While the handle is pending the episodes section is the grid with
    exactly four placeholder entries, each with the text "Loading..." on the
    grey background; once it has fulfilled with a list of episodes the grid
    never has more than four entries, and when the list has at least one
    episode they are its first four, in order: the entry at each position
    below four carries the name of the episode at that position (on white,
    or on grey when the episode has no identifier), and nothing is shown of
    the episodes from the fifth on. *)
Theorem episodes_grid_placeholders_and_cap :
  (forall (handle : Promise (Nullable EpisodesData)) (t : Time),
      state_at handle t = Pending ->
      Suspense_Await handle t =
        EpisodesGridElement "Episodes"
          [ {| item_text := "Loading..."; item_backgroundColor := "#eee" |};
            {| item_text := "Loading..."; item_backgroundColor := "#eee" |};
            {| item_text := "Loading..."; item_backgroundColor := "#eee" |};
            {| item_text := "Loading..."; item_backgroundColor := "#eee" |} ]) /\
  (forall (handle : Promise (Nullable EpisodesData)) (t : Time)
          (data : Nullable EpisodesData) (episodes : list Episode),
      settled_at handle <= t ->
      outcome handle = Fulfilled data ->
      optional_chain (optional_chain data data_episodes_character) episode =
        Some episodes ->
      exists items,
        Suspense_Await handle t = EpisodesGridElement "Episodes" items /\
        length items <= 4 /\
        (episodes <> [] ->
         items =
           map (fun e =>
                  {| item_text := episode_name e;
                     item_backgroundColor :=
                       if (episode_id e =? "")%string then "#eee" else "white" |})
               (firstn 4 episodes) /\
         map item_text items = map episode_name (firstn 4 episodes) /\
         length items = Nat.min 4 (length episodes) /\
         (forall i e,
             i < 4 -> nth_error episodes i = Some e ->
             nth_error items i =
               Some {| item_text := episode_name e;
                       item_backgroundColor :=
                         if (episode_id e =? "")%string
                         then "#eee" else "white" |}) /\
         (forall i, 4 <= i -> nth_error items i = None))).
Proof.
  split.
  - intros handle t H. unfold Suspense_Await. rewrite H. reflexivity.
  - intros handle t data episodes Ht Hout Hsome.
    unfold Suspense_Await, Await_children.
    rewrite (state_at_done _ _ _ Ht), Hout, Hsome.
    destruct episodes as [|e rest].
    + eexists. split; [reflexivity|]. split; [cbn; lia|]. intros []; reflexivity.
    + rewrite EpisodesGrid_real by discriminate.
      rewrite (map_ext _ _ episode_li_shown).
      eexists. split; [reflexivity|].
      rewrite length_map, length_firstn. split; [lia|].
      intros _. split; [reflexivity|].
      split; [rewrite map_map; reflexivity|].
      split; [reflexivity|]. split.
      * intros i e' Hi He'. rewrite nth_error_map, nth_error_firstn.
        apply Nat.ltb_lt in Hi. rewrite Hi, He'. reflexivity.
      * intros i Hi. rewrite nth_error_map, nth_error_firstn.
        destruct (Nat.ltb_spec i 4); [lia | reflexivity].
Qed.

Lemma episodes_grid_placeholders_and_cap_witness :
  Suspense_Await (mkPromise 2000 Sample.episodes_found) 100 =
    EpisodesGridElement "Episodes"
      [ mkEpisodeItem "Loading..." "#eee"; mkEpisodeItem "Loading..." "#eee";
        mkEpisodeItem "Loading..." "#eee"; mkEpisodeItem "Loading..." "#eee" ] /\
  Suspense_Await (mkPromise 2000 Sample.episodes_found) 2000 =
    EpisodesGridElement "Episodes"
      [ mkEpisodeItem "Pilot" "white";
        mkEpisodeItem "Lawnmower Dog" "white";
        mkEpisodeItem "Anatomy Park" "white";
        mkEpisodeItem "M. Night Shaym-Aliens!" "white" ].
Proof.
  split.
  - exact (proj1 episodes_grid_placeholders_and_cap
                 (mkPromise 2000 Sample.episodes_found) 100 eq_refl).
  - destruct (proj2 episodes_grid_placeholders_and_cap
                    (mkPromise 2000 Sample.episodes_found) 2000
                    (Sample.episodes_of Sample.five_episodes)
                    Sample.five_episodes (le_n 2000) eq_refl eq_refl)
      as (items & Hitems & _ & Hreal).
    destruct Hreal as (Hfirst & _); [discriminate|].
    rewrite Hitems, Hfirst. reflexivity.
Defined.

(** C10.  The locations section shows the names of the first six locations
    of the list, in order, and nothing of what comes after the sixth; this
    holds for the list of every page that renders. *)
Theorem locations_show_first_six :
  (forall locations : list Location,
      Locations locations = map location_name (firstn 6 locations) /\
      length (Locations locations) = Nat.min 6 (length locations) /\
      forall i, nth_error (Locations locations) i =
                if (i <? 6)%nat
                then option_map location_name (nth_error locations i)
                else None) /\
  (forall (data : LoaderData) (t : Time) (page : Page),
      CharacterPage data t = Returned page ->
      exists (listing : LocationsPage) (shown : list Location),
        locations data = Some listing /\
        results listing = Some shown /\
        page_locations page = map location_name (firstn 6 shown)).
Proof.
  assert (Hsix : forall l, Locations l = map location_name (firstn 6 l))
    by (intros l; unfold Locations; rewrite slice_from_start; reflexivity).
  split.
  - intros l. rewrite Hsix. split; [reflexivity|].
    rewrite length_map, length_firstn. split; [reflexivity|].
    intros i. rewrite nth_error_map, nth_error_firstn.
    destruct (i <? 6)%nat; reflexivity.
  - intros data t page. unfold CharacterPage.
    destruct (character data); [|discriminate].
    destruct (locations data) as [listing|]; [|discriminate].
    destruct (results listing) as [shown|] eqn:Hres; [|discriminate].
    intros H. injection H as <-. cbn [page_locations].
    exists listing, shown. rewrite Hsix. auto.
Qed.

Lemma locations_show_first_six_witness :
  exists page,
    CharacterPage SampleRuns.data_2 0 = Returned page /\
    page_locations page =
      ["Earth (C-137)"; "Abadango"; "Citadel of Ricks"; "Worldender's lair";
       "Anatomy Park"; "Interdimensional Cable"].
Proof.
  eexists. split; [reflexivity|].
  destruct (proj2 locations_show_first_six SampleRuns.data_2 0 _ eq_refl)
    as (listing & shown & Hl & Hr & Hpage).
  injection Hl as <-. injection Hr as <-. exact Hpage.
Defined.

(* ===================================================================== *)
(** ** Requests the loader does not check *)
(* ===================================================================== *)

(** Why the loader rejects, when it does. *)
Lemma loader_rejected_inv (context : Gateway) (params : Params) (t0 : Time)
      (e : JsError) :
  outcome (fst (invoke (loader context params) t0)) = Rejected e ->
  result (character_reply context params) = Rejected e \/
  result (locations_reply context) = Rejected e \/
  e = TypeError "Cannot destructure property of null or undefined".
Proof.
  rewrite invoke_loader.
  unfold loader_promise, critical_join, Promise_all. cbn.
  destruct (result (character_reply context params)) as [[cd|]|ec];
    destruct (result (locations_reply context)) as [[ld|]|el];
    cbn; try discriminate;
    try (destruct (_ <=? _)%nat; cbn);
    intros H; injection H as <-; auto.
Qed.

(** C7, as stated, fails: invoked without an identifier, the loader issues
    the deferred fetch and both critical fetches at once, with [id]
    undefined, and what fails 40 ms later is the character fetch that the
    upstream refused. *)
Lemma missing_identifier_reaches_the_network :
  invoke (loader StrictApi.gateway Sample.request_without_id) 0 =
  (mkPromise 40
     (Rejected (Error "Error fetching from rick and morty api: Bad Request")),
   [ mkCall 0 DEFERRED_CHARACTER_EPISODES_QUERY
       {| variables := Some [("id", None)]; cache := CacheNone |};
     mkCall 0 CHARACTER_QUERY
       {| variables := Some [("id", None)]; cache := CacheNone |};
     mkCall 0 CHARACTER_LOCATIONS_QUERY
       {| variables := Some []; cache := CacheNone |} ]).
Proof. reflexivity. Qed.

(** C7, amended.  The loader does not look at the identifier: whatever it
    is, and so also when it is absent ([None]) or empty, the three fetches
    are issued at the instant of the invocation, with the identifier passed
    on unchanged; the loader fails
    only with the reason of a critical fetch that rejected or because a
    critical payload is missing, and it returns whenever both critical
    fetches fulfil with a payload. *)
Theorem missing_identifier_is_passed_through
        (context : Gateway) (t0 : Time) (identifier : option string) :
  snd (invoke (loader context (mkParams identifier)) t0) =
    [ mkCall t0 DEFERRED_CHARACTER_EPISODES_QUERY
        {| variables := Some [("id", identifier)]; cache := CacheNone |};
      mkCall t0 CHARACTER_QUERY
        {| variables := Some [("id", identifier)]; cache := CacheNone |};
      mkCall t0 CHARACTER_LOCATIONS_QUERY
        {| variables := Some []; cache := CacheNone |} ] /\
  (forall e,
      outcome (fst (invoke (loader context (mkParams identifier)) t0)) =
        Rejected e ->
      result (character_reply context (mkParams identifier)) = Rejected e \/
      result (locations_reply context) = Rejected e \/
      e = TypeError "Cannot destructure property of null or undefined") /\
  (forall cd ld,
      result (character_reply context (mkParams identifier)) =
        Fulfilled (Some cd) ->
      result (locations_reply context) = Fulfilled (Some ld) ->
      critical_result
        (outcome (fst (invoke (loader context (mkParams identifier)) t0))) =
      Fulfilled (data_character cd, data_locations ld)).
Proof.
  split; [|split].
  - rewrite invoke_loader. reflexivity.
  - intros e. apply loader_rejected_inv.
  - intros cd ld Hc Hl.
    rewrite (loader_returns context _ t0 cd ld Hc Hl). reflexivity.
Qed.

Lemma missing_identifier_is_passed_through_witness :
  length (snd (invoke (loader StrictApi.gateway Sample.request_without_id) 0)) = 3.
Proof.
  exact (f_equal (@length Call)
                 (proj1 (missing_identifier_is_passed_through
                           StrictApi.gateway 0 None))).
Defined.

(** C8, as stated, fails: for the identifier "999999" the upstream answers
    [{character: null}] and the loader returns, with a null character, when
    the locations arrive. *)
Lemma unknown_character_is_returned :
  fst (invoke (loader Sample.unknown_character Sample.request_999999) 0) =
  mkPromise 60
    (Fulfilled
       {| character := None;
          locations := Some {| results := Some Sample.seven_places |};
          episodesPromise :=
            mkPromise 2000
              (Fulfilled (Some {| data_episodes_character := None |})) |}).
Proof. reflexivity. Qed.

(** C8, amended.  When the character fetch fulfils with a null character
    (and the locations fetch fulfils with a payload), the loader does not
    fail: it returns, when the later critical fetch resolves, a result whose
    character is null.  No page comes out of it because the page component
    throws a [TypeError] on the null character at whatever instant it is
    rendered. *)
Theorem null_character_fails_in_the_renderer
        (context : Gateway) (params : Params) (t0 : Time) (ld : LocationsData) :
  result (character_reply context params) =
    Fulfilled (Some {| data_character := None |}) ->
  result (locations_reply context) = Fulfilled (Some ld) ->
  exists data : LoaderData,
    fst (invoke (loader context params) t0) =
      mkPromise (t0 + Nat.max (latency (character_reply context params))
                              (latency (locations_reply context)))
                (Fulfilled data) /\
    character data = None /\
    forall t, CharacterPage data t =
              Thrown (TypeError "Cannot read properties of null (reading 'name')").
Proof.
  intros Hc Hl. eexists.
  split; [apply (loader_returns context params t0 _ ld Hc Hl)|].
  split; reflexivity.
Qed.

Lemma null_character_fails_in_the_renderer_witness :
  exists data : LoaderData,
    fst (invoke (loader Sample.unknown_character Sample.request_999999) 0) =
      mkPromise 60 (Fulfilled data) /\
    CharacterPage data 60 =
      Thrown (TypeError "Cannot read properties of null (reading 'name')").
Proof.
  destruct (null_character_fails_in_the_renderer
              Sample.unknown_character Sample.request_999999 0 _
              eq_refl eq_refl)
    as (data & Hrun & _ & Hthrows).
  exists data. split; [exact Hrun | apply Hthrows].
Defined.

(* ===================================================================== *)
(** ** Cache policies *)
(* ===================================================================== *)

(** Case analysis on the answer a loader is waiting for. *)
Ltac case_result :=
  match goal with
  | |- context [match @result ?A ?r with _ => _ end] =>
      destruct (@result A r) as [[?|]|?]
  end.

Lemma invoke_index_loader (context : Gateway) (t0 : Time) :
  snd (invoke (index_loader context) t0) =
  [ mkCall t0 CHARACTERS_QUERY {| variables := None; cache := CacheShort |} ].
Proof.
  unfold invoke, index_loader, query, await, json, destructure, bind, ret, throw.
  cbn.
  case_result; reflexivity.
Qed.

Lemma invoke_loader_json (context : Gateway) (params : Params) (t0 : Time) :
  snd (invoke (Earlier.loader_json context params) t0) =
  [ mkCall t0 CHARACTER_QUERY (by_id params) ].
Proof.
  unfold invoke, Earlier.loader_json, query, await, json, destructure, bind,
    ret, throw.
  cbn.
  case_result; reflexivity.
Qed.

Lemma invoke_loader_defer (context : Gateway) (params : Params) (t0 : Time) :
  snd (invoke (Earlier.loader_defer context params) t0) =
  [ mkCall t0 DEFERRED_CHARACTER_EPISODES_QUERY (by_id params);
    mkCall t0 CHARACTER_QUERY (by_id params) ].
Proof.
  unfold invoke, Earlier.loader_defer, bind at 1 2. unfold query at 1.
  cbn iota beta. rewrite pMinDelay_run.
  unfold query, await, destructure, bind, ret, throw.
  cbn.
  case_result; reflexivity.
Qed.

(** C9, as stated, fails: the locations fetch of the detail route has no
    variable at all, so its result does not depend on the request, and yet
    it is issued with the no-cache policy. *)
Lemma locations_fetch_is_never_cached :
  In (mkCall 0 CHARACTER_LOCATIONS_QUERY
        {| variables := Some []; cache := CacheNone |})
     (snd (invoke (loader Sample.fast_episodes Sample.request_2) 0)) /\
  keyed_by_request {| variables := Some []; cache := CacheNone |} = false /\
  prescribed_policy
    (mkCall 0 CHARACTER_LOCATIONS_QUERY
       {| variables := Some []; cache := CacheNone |}) = false.
Proof.
  split; [|split]; try reflexivity.
  cbn. auto.
Qed.

(** C9, amended.  Every fetch of the detail route, in each of its forms,
    uses the no-cache policy: the character and episodes fetches keyed by
    the identifier of the request, and also the locations listing, which
    takes no variable.  The only fetch of the listing route takes no
    variable and uses the short-lived cache.  So each fetch keyed by the
    request, and the listing route's fetch, has the prescribed policy. *)
Theorem cache_policy_of_every_fetch
        (context : Gateway) (params : Params) (t0 : Time) :
  Forall (fun c => cache (call_options c) = CacheNone)
         (snd (invoke (loader context params) t0)) /\
  Forall (fun c => cache (call_options c) = CacheNone)
         (snd (invoke (Earlier.loader_json context params) t0)) /\
  Forall (fun c => cache (call_options c) = CacheNone)
         (snd (invoke (Earlier.loader_defer context params) t0)) /\
  Forall (fun c => cache (call_options c) = CacheShort /\
                   keyed_by_request (call_options c) = false)
         (snd (invoke (index_loader context) t0)) /\
  Forall (fun c => keyed_by_request (call_options c) = true ->
                   prescribed_policy c = true)
         (snd (invoke (loader context params) t0)) /\
  Forall (fun c => prescribed_policy c = true)
         (snd (invoke (index_loader context) t0)).
Proof.
  rewrite invoke_loader, invoke_loader_json, invoke_loader_defer,
    invoke_index_loader.
  repeat split; repeat constructor; cbn; auto; discriminate.
Qed.


(* ===================================================================== *)
(** ** Further properties of the detail route *)
(* ===================================================================== *)

Lemma invoke_loader_fst (context : Gateway) (params : Params) (t0 : Time) :
  fst (invoke (loader context params) t0) = loader_promise context params t0.
Proof. rewrite invoke_loader. reflexivity. Qed.



(** X2.  When both critical fetches fulfil but one of them has no payload
    ([json.data] missing), the loader throws a [TypeError] from the
    destructuring, at the instant the later fetch resolved. *)
Theorem loader_throws_on_missing_payload
        (context : Gateway) (params : Params) (t0 : Time)
        (cd : Nullable CharacterData) (ld : Nullable LocationsData) :
  result (character_reply context params) = Fulfilled cd ->
  result (locations_reply context) = Fulfilled ld ->
  cd = None \/ ld = None ->
  fst (invoke (loader context params) t0) =
  mkPromise (t0 + Nat.max (latency (character_reply context params))
                          (latency (locations_reply context)))
            (Rejected (TypeError "Cannot destructure property of null or undefined")).
Proof.
  intros Hc Hl Hmissing. rewrite invoke_loader_fst.
  unfold loader_promise, critical_join, Promise_all. cbn [settled_at outcome].
  rewrite Hc, Hl. cbn [settled_at outcome]. rewrite join_instant.
  destruct Hmissing as [-> | ->]; [reflexivity|].
  destruct cd; reflexivity.
Qed.

Lemma loader_throws_on_missing_payload_witness :
  outcome
    (fst (invoke
            (loader (Sample.gateway (mkReply 5 Sample.episodes_found)
                                    (mkReply 40 (Fulfilled None))
                                    (mkReply 60 Sample.locations_found))
                    Sample.request_2) 0)) =
  Rejected (TypeError "Cannot destructure property of null or undefined").
Proof.
  exact (f_equal (@outcome LoaderData)
           (loader_throws_on_missing_payload
              (Sample.gateway (mkReply 5 Sample.episodes_found)
                              (mkReply 40 (Fulfilled None))
                              (mkReply 60 Sample.locations_found))
              Sample.request_2 0 None _ eq_refl eq_refl (or_introl eq_refl))).
Defined.

(** X4.  From the request to the page.  When the three fetches fulfil with
    full payloads and at least one episode, the loader returns and the page
    rendered from its data at any instant shows the character, the names of
    the first six locations and, in the episodes section, four "Loading..."
    entries on grey before [t0 + max(2000, episodes latency)] and from then
    on one entry for each of the first four episodes, in order, carrying the
    episode's name (on white, or on grey when the episode has no
    identifier). *)
Theorem page_streams_the_episodes
        (context : Gateway) (params : Params) (t0 : Time)
        (c : Character) (shown : list Location) (episodes : list Episode) :
  result (character_reply context params) =
    Fulfilled (Some {| data_character := Some c |}) ->
  result (locations_reply context) =
    Fulfilled (Some {| data_locations := Some {| results := Some shown |} |}) ->
  result (episodes_reply context params) =
    Fulfilled (Some {| data_episodes_character :=
                         Some {| episode := Some episodes |} |}) ->
  episodes <> [] ->
  exists data,
    fst (invoke (loader context params) t0) =
      mkPromise (t0 + Nat.max (latency (character_reply context params))
                              (latency (locations_reply context)))
                (Fulfilled data) /\
    forall t,
      CharacterPage data t =
      Returned
        {| page_heading := character_name c;
           page_image := (character_image c, character_name c);
           page_facts := character_facts c;
           page_locations := map location_name (firstn 6 shown);
           page_episodes :=
             if (t <? t0 + Nat.max 2000 (latency (episodes_reply context params)))%nat
             then EpisodesGridElement "Episodes"
                    [ {| item_text := "Loading..."; item_backgroundColor := "#eee" |};
                      {| item_text := "Loading..."; item_backgroundColor := "#eee" |};
                      {| item_text := "Loading..."; item_backgroundColor := "#eee" |};
                      {| item_text := "Loading..."; item_backgroundColor := "#eee" |} ]
             else EpisodesGridElement "Episodes"
                    (map (fun e =>
                            {| item_text := episode_name e;
                               item_backgroundColor :=
                                 if (episode_id e =? "")%string
                                 then "#eee" else "white" |})
                         (firstn 4 episodes)) |}.
Proof.
  intros Hc Hl He Hne.
  eexists. split; [apply (loader_returns context params t0 _ _ Hc Hl)|].
  intros t. unfold CharacterPage. cbn [character locations episodesPromise
    data_character data_locations results].
  unfold Locations. rewrite slice_from_start.
  unfold Suspense_Await, state_at, deferred_handle. cbn [settled_at outcome].
  rewrite He.
  destruct (t <? _)%nat; [reflexivity|].
  unfold Await_children. cbn [optional_chain data_episodes_character episode].
  rewrite (EpisodesGrid_real episodes Hne).
  rewrite (map_ext _ _ episode_li_shown). reflexivity.
Qed.

Lemma page_streams_the_episodes_witness :
  exists data,
    fst (invoke (loader Sample.fast_episodes Sample.request_2) 0) =
      mkPromise 60 (Fulfilled data) /\
    (exists page,
        CharacterPage data 1999 = Returned page /\
        page_episodes page =
          EpisodesGridElement "Episodes"
            [ mkEpisodeItem "Loading..." "#eee"; mkEpisodeItem "Loading..." "#eee";
              mkEpisodeItem "Loading..." "#eee"; mkEpisodeItem "Loading..." "#eee" ]) /\
    (exists page,
        CharacterPage data 2000 = Returned page /\
        page_episodes page =
          EpisodesGridElement "Episodes"
            [ mkEpisodeItem "Pilot" "white";
              mkEpisodeItem "Lawnmower Dog" "white";
              mkEpisodeItem "Anatomy Park" "white";
              mkEpisodeItem "M. Night Shaym-Aliens!" "white" ]).
Proof.
  destruct (page_streams_the_episodes
              Sample.fast_episodes Sample.request_2 0
              Sample.morty Sample.seven_places Sample.five_episodes
              eq_refl eq_refl eq_refl)
    as (data & Hrun & Hpage); [discriminate|].
  exists data. split; [exact Hrun|].
  split; eexists; (split; [apply Hpage | reflexivity]).
Defined.

Lemma In_firstn A (n : nat) (l : list A) (x : A) :
  In x (firstn n l) -> In x l.
Proof.
  revert l. induction n as [|n IH]; intros [|a l]; cbn; try tauto.
  intros [->|H]; auto.
Qed.

(** X5.  Real episodes never look like the loading state: when the list is
    not empty and every episode has an identifier, every entry of the grid
    has the white background and none is the "Loading..." placeholder; an
    episode without identifier gets the placeholder's grey background. *)
Theorem real_episodes_are_not_placeholders (episodes : list Episode) :
  episodes <> [] ->
  (forall e, In e episodes -> episode_id e <> "") ->
  exists items,
    EpisodesGrid (Some episodes) = EpisodesGridElement "Episodes" items /\
    (forall item, In item items -> item_backgroundColor item = "white") /\
    ~ In placeholder_li items /\
    (forall e, episode_id e = "" ->
               item_backgroundColor (episode_li e) =
               item_backgroundColor placeholder_li).
Proof.
  intros Hne Hids. rewrite (EpisodesGrid_real episodes Hne).
  eexists. split; [reflexivity|].
  assert (Hwhite : forall item,
             In item (map episode_li (firstn 4 episodes)) ->
             item_backgroundColor item = "white").
  { intros item Hin. apply in_map_iff in Hin as (e & <- & He).
    apply In_firstn, Hids in He. unfold episode_li, truthy_string. cbn.
    apply String.eqb_neq in He. rewrite He. reflexivity. }
  split; [exact Hwhite|]. split.
  - intros Hin. apply Hwhite in Hin. discriminate.
  - intros e He. unfold episode_li, truthy_string. cbn. rewrite He. reflexivity.
Qed.

Lemma real_episodes_are_not_placeholders_witness :
  exists items,
    EpisodesGrid (Some Sample.five_episodes) =
      EpisodesGridElement "Episodes" items /\
    ~ In placeholder_li items.
Proof.
  destruct (real_episodes_are_not_placeholders Sample.five_episodes)
    as (items & Hgrid & _ & Hnot & _).
  - discriminate.
  - intros e [<-|[<-|[<-|[<-|[<-|[]]]]]]; discriminate.
  - exists items. split; assumption.
Defined.

(** X6.  The "Type:" row of the page is there exactly when the character's
    type is not the empty string, with that type as its value; the rows for
    species, gender, origin and location are always the last four, in this
    order. *)
Theorem type_row_only_for_a_set_type (c : Character) :
  (forall v, In ("Type:", v) (character_facts c) <->
             v = character_type c /\ v <> "") /\
  length (character_facts c) =
    (if (character_type c =? "")%string then 4 else 5) /\
  skipn (length (character_facts c) - 4) (character_facts c) =
    [ ("Species:", character_species c);
      ("Gender:", character_gender c);
      ("Origin:", only_name (character_origin c));
      ("Location:", only_name (character_location c)) ].
Proof.
  unfold character_facts, truthy_string.
  destruct (String.eqb_spec (character_type c) "") as [Hempty|Hset]; cbn.
  - split; [|split; reflexivity].
    intros v. split.
    + intros [H|[H|[H|[H|[]]]]]; discriminate.
    + intros [-> Hv]. contradiction.
  - split; [|split; reflexivity].
    intros v. split.
    + intros [H|[H|[H|[H|[H|[]]]]]]; try discriminate.
      injection H as <-. split; [reflexivity | exact Hset].
    + intros [-> _]. auto.
Qed.

(* ===================================================================== *)
(** ** The listing route *)
(* ===================================================================== *)

Lemma invoke_index_loader_fst (context : Gateway) (t0 : Time) :
  fst (invoke (index_loader context) t0) =
  mkPromise (t0 + latency (characters_reply context))
    match result (characters_reply context) with
    | Fulfilled (Some data) => Fulfilled (data_characters data)
    | Fulfilled None =>
        Rejected (TypeError "Cannot destructure property of null or undefined")
    | Rejected e => Rejected e
    end.
Proof.
  unfold invoke, index_loader, query, await, json, destructure, bind, ret, throw.
  cbn [now calls settled_at outcome fst snd app].
  change (context CHARACTERS_QUERY {| variables := None; cache := CacheShort |})
    with (characters_reply context).
  cbn [ResultOf].
  destruct (result (characters_reply context)) as [[d|]|e];
    cbn; f_equal; lia.
Qed.



(** X8.  The listing route from the request to the page.  Its loader
    settles when its single fetch does; a payload with a [characters] object
    is handed to the page, which then renders a link per result; a payload
    whose [characters] is [null] is returned all the same and makes the page
    throw; a missing payload makes the loader throw a [TypeError]; and a
    rejected fetch rejects the loader with the same reason. *)
Theorem listing_route_outcomes (context : Gateway) (t0 : Time) :
  settled_at (fst (invoke (index_loader context) t0)) =
    t0 + latency (characters_reply context) /\
  (forall page,
      result (characters_reply context) =
        Fulfilled (Some {| data_characters := Some page |}) ->
      outcome (fst (invoke (index_loader context) t0)) = Fulfilled (Some page) /\
      Homepage (Some page) =
        Returned (map (character_link (Some "intent"))
                      (or_empty (characters_results page)))) /\
  (result (characters_reply context) =
     Fulfilled (Some {| data_characters := None |}) ->
   outcome (fst (invoke (index_loader context) t0)) = Fulfilled None /\
   Homepage None =
     Thrown (TypeError "Cannot read properties of null (reading 'results')")) /\
  (result (characters_reply context) = Fulfilled None ->
   outcome (fst (invoke (index_loader context) t0)) =
     Rejected (TypeError "Cannot destructure property of null or undefined")) /\
  (forall e,
      result (characters_reply context) = Rejected e ->
      outcome (fst (invoke (index_loader context) t0)) = Rejected e).
Proof.
  rewrite invoke_index_loader_fst. cbn [settled_at outcome].
  split; [reflexivity|].
  split; [intros page ->; split; reflexivity|].
  split; [intros ->; split; reflexivity|].
  split; [intros ->; reflexivity|].
  intros e ->. reflexivity.
Qed.

Lemma listing_route_outcomes_witness :
  outcome (fst (invoke (index_loader Sample.fast_episodes) 0)) =
  Rejected (TypeError "Cannot destructure property of null or undefined").
Proof.
  exact (proj1 (proj2 (proj2 (proj2 (listing_route_outcomes
                                       Sample.fast_episodes 0))))
               eq_refl).
Defined.

(* ===================================================================== *)
(** ** The earlier forms of the detail route *)
(* ===================================================================== *)

Lemma invoke_loader_json_fst (context : Gateway) (params : Params) (t0 : Time) :
  fst (invoke (Earlier.loader_json context params) t0) =
  mkPromise (t0 + latency (character_reply context params))
            (character_only context params).
Proof.
  unfold character_only, invoke, Earlier.loader_json, query, await, json,
    destructure, bind, ret, throw.
  cbn [now calls settled_at outcome fst snd app].
  change (context CHARACTER_QUERY (by_id params))
    with (character_reply context params).
  cbn [ResultOf].
  destruct (result (character_reply context params)) as [[d|]|e];
    cbn; f_equal; lia.
Qed.

Lemma invoke_loader_defer_fst (context : Gateway) (params : Params) (t0 : Time) :
  fst (invoke (Earlier.loader_defer context params) t0) =
  mkPromise (t0 + latency (character_reply context params))
    match character_only context params with
    | Fulfilled c => Fulfilled (c, deferred_handle context params t0)
    | Rejected e => Rejected e
    end.
Proof.
  unfold character_only, deferred_handle, invoke, Earlier.loader_defer,
    bind at 1 2.
  unfold query at 1. cbn iota beta. rewrite pMinDelay_run.
  unfold query, await, destructure, bind, ret, throw.
  cbn [now calls settled_at outcome fst snd app].
  change (context CHARACTER_QUERY (by_id params))
    with (character_reply context params).
  change (context DEFERRED_CHARACTER_EPISODES_QUERY (by_id params))
    with (episodes_reply context params).
  cbn [ResultOf].
  destruct (result (character_reply context params)) as [[d|]|e];
    cbn; rewrite ?floor_instant; f_equal; lia.
Qed.

(** X9.  Deferring the episodes costs the critical path nothing: the loader
    that also starts the padded episodes fetch settles at the same instant
    as the loader that only awaits the character, with the same character
    or the same reason, whatever the episodes fetch does; and the handle it
    adds settles at [t0 + max(2000, episodes latency)]. *)
Theorem deferring_episodes_is_free
        (context : Gateway) (params : Params) (t0 : Time) :
  settled_at (fst (invoke (Earlier.loader_defer context params) t0)) =
  settled_at (fst (invoke (Earlier.loader_json context params) t0)) /\
  match outcome (fst (invoke (Earlier.loader_defer context params) t0)) with
  | Fulfilled (c, handle) =>
      outcome (fst (invoke (Earlier.loader_json context params) t0)) =
        Fulfilled c /\
      settled_at handle =
        t0 + Nat.max 2000 (latency (episodes_reply context params)) /\
      outcome handle = result (episodes_reply context params)
  | Rejected e =>
      outcome (fst (invoke (Earlier.loader_json context params) t0)) =
        Rejected e
  end.
Proof.
  rewrite invoke_loader_defer_fst, invoke_loader_json_fst.
  cbn [settled_at outcome]. split; [reflexivity|].
  destruct (character_only context params); cbn; auto.
Qed.

(** X10.  Adding the locations only delays the return.  Whenever the
    present loader returns, the earlier deferring loader returns too, no
    later, with the same character and the same handle; and whenever the
    present page renders, the earlier page renders the same heading, image,
    facts and episodes section at the same instant, without the locations. *)
Theorem locations_fetch_only_delays
        (context : Gateway) (params : Params) (t0 tr : Time) (data : LoaderData) :
  fst (invoke (loader context params) t0) = mkPromise tr (Fulfilled data) ->
  exists tr',
    fst (invoke (Earlier.loader_defer context params) t0) =
      mkPromise tr' (Fulfilled (character data, episodesPromise data)) /\
    tr' <= tr /\
    tr' = t0 + latency (character_reply context params) /\
    forall t page,
      CharacterPage data t = Returned page ->
      EarlierPages.CharacterPage (character data, episodesPromise data) t =
      Returned {| page_heading := page_heading page;
                  page_image := page_image page;
                  page_facts := page_facts page;
                  page_locations := [];
                  page_episodes := page_episodes page |}.
Proof.
  intros H.
  apply loader_returned_inv in H as ((cd & ld & Hc & Hl & Hch & Hlo) & -> & Hh).
  eexists. split; [|split; [|split; [reflexivity|]]].
  - rewrite invoke_loader_defer_fst. unfold character_only.
    rewrite Hc, Hch, Hh. reflexivity.
  - lia.
  - intros t page. unfold CharacterPage, EarlierPages.CharacterPage.
    cbn [fst snd].
    destruct (character data); [|discriminate].
    destruct (locations data) as [listing|]; [|discriminate].
    destruct (results listing); [|discriminate].
    intros Hp. injection Hp as <-. reflexivity.
Qed.

Lemma locations_fetch_only_delays_witness :
  exists tr',
    fst (invoke (Earlier.loader_defer Sample.slow_critical Sample.request_2) 0) =
      mkPromise tr'
        (Fulfilled (character SampleRuns.data_2,
                    episodesPromise SampleRuns.data_2)) /\
    tr' <= 3000.
Proof.
  destruct (locations_fetch_only_delays
              Sample.slow_critical Sample.request_2 0 3000 SampleRuns.data_2
              eq_refl)
    as (tr' & Hrun & Hle & _).
  exists tr'. split; assumption.
Defined.

(* ===================================================================== *)
(** ** The client's call to the API *)
(* ===================================================================== *)







(** X12.  A response that is not [ok] makes the call reject with
    ["Error fetching from rick and morty api: " + statusText], at the
    instant the response arrives and without reading its body; and a
    rejected [fetch] rejects the call with the same reason. *)
Theorem call_api_fails_without_reading_the_body
        (A : Type) (fetch : Client.Fetch A) (document : string)
        (options : QueryOptions) (t0 : Time) :
  (forall response,
      result (fetch Client.endpoint (Client.request_init document options)) =
        Fulfilled response ->
      Client.ok response = false ->
      fst (invoke (Client.call_api fetch document options) t0) =
      mkPromise
        (t0 + latency (fetch Client.endpoint
                             (Client.request_init document options)))
        (Rejected (Error ("Error fetching from rick and morty api: "
                            ++ Client.statusText response)))) /\
  (forall e,
      result (fetch Client.endpoint (Client.request_init document options)) =
        Rejected e ->
      fst (invoke (Client.call_api fetch document options) t0) =
      mkPromise
        (t0 + latency (fetch Client.endpoint
                             (Client.request_init document options)))
        (Rejected e)).
Proof.
  unfold invoke, Client.call_api, Client.start, await, bind, ret, throw.
  cbn [now calls settled_at outcome fst snd].
  split.
  - intros response -> Hok. rewrite Hok. cbn. f_equal. lia.
  - intros e ->. cbn. f_equal. lia.
Qed.

Lemma call_api_fails_without_reading_the_body_witness :
  fst (invoke
         (Client.call_api
            (fun _ _ =>
               mkReply 80
                 (Fulfilled
                    (Client.mkResponse false "Bad Gateway"
                       (mkReply 500 (Fulfilled
                                       (Client.mkResponseJson
                                          (Some Sample.morty) None))))))
            "{}" (by_id Sample.request_2)) 0) =
  mkPromise 80
    (Rejected (Error "Error fetching from rick and morty api: Bad Gateway")).
Proof.
  exact (proj1 (call_api_fails_without_reading_the_body
                  Character
                  (fun _ _ =>
                     mkReply 80
                       (Fulfilled
                          (Client.mkResponse false "Bad Gateway"
                             (mkReply 500 (Fulfilled
                                             (Client.mkResponseJson
                                                (Some Sample.morty) None))))))
                  "{}" (by_id Sample.request_2) 0)
               _ eq_refl eq_refl).
Defined.

(** X13.  For an [ok] response the call resolves to the [data] of the parsed
    body once the body has been read, whatever its [error] says: a body
    with an error and no data resolves to an absent payload, it does not
    reject.  If reading the body fails, the call rejects with that reason. *)
Theorem call_api_returns_the_data_of_an_ok_response
        (A : Type) (fetch : Client.Fetch A) (document : string)
        (options : QueryOptions) (t0 : Time) (response : Client.Response A) :
  result (fetch Client.endpoint (Client.request_init document options)) =
    Fulfilled response ->
  Client.ok response = true ->
  settled_at (fst (invoke (Client.call_api fetch document options) t0)) =
    t0 + latency (fetch Client.endpoint (Client.request_init document options))
       + latency (Client.json_reply response) /\
  (forall parsed,
      result (Client.json_reply response) = Fulfilled parsed ->
      outcome (fst (invoke (Client.call_api fetch document options) t0)) =
        Fulfilled (Client.json_data parsed)) /\
  (forall e,
      result (Client.json_reply response) = Rejected e ->
      outcome (fst (invoke (Client.call_api fetch document options) t0)) =
        Rejected e).
Proof.
  intros Hfetch Hok.
  unfold invoke, Client.call_api, Client.start, await, bind, ret, throw.
  cbn [now calls settled_at outcome fst snd].
  rewrite Hfetch, Hok. cbn [negb now calls settled_at outcome fst snd].
  destruct (result (Client.json_reply response)) as [parsed|e];
    cbn; (split; [lia|]); split; intros x Hx; congruence.
Qed.

Lemma call_api_returns_the_data_of_an_ok_response_witness :
  outcome
    (fst (invoke
            (Client.call_api
               (fun _ _ =>
                  mkReply 80
                    (Fulfilled
                       (Client.mkResponse true "OK"
                          (mkReply 3 (Fulfilled
                                        (Client.mkResponseJson
                                           (@None Character)
                                           (Some "Variable id is required")))))))
               "{}" (by_id Sample.request_without_id)) 0)) =
  Fulfilled None.
Proof.
  exact (proj1 (proj2 (call_api_returns_the_data_of_an_ok_response
                         Character
                         (fun _ _ =>
                            mkReply 80
                              (Fulfilled
                                 (Client.mkResponse true "OK"
                                    (mkReply 3
                                       (Fulfilled
                                          (Client.mkResponseJson
                                             (@None Character)
                                             (Some "Variable id is required")))))))
                         "{}" (by_id Sample.request_without_id) 0 _
                         eq_refl eq_refl))
               _ eq_refl).
Defined.

(* ===================================================================== *)
(** ** The size of the episodes grid *)
(* ===================================================================== *)

(** X14.  The episodes grid is never empty and never has more than four
    entries: it has four when it is given no list or an empty one, and
    otherwise as many as the list has episodes, up to four. *)
Theorem episodes_grid_has_one_to_four_entries (episodes : option (list Episode)) :
  exists items,
    EpisodesGrid episodes = EpisodesGridElement "Episodes" items /\
    1 <= length items <= 4 /\
    length items =
      match episodes with
      | Some (first :: others) => Nat.min 4 (S (length others))
      | _ => 4
      end.
Proof.
  destruct episodes as [[|first others]|].
  - eexists. split; [reflexivity|]. cbn. lia.
  - rewrite EpisodesGrid_real by discriminate.
    eexists. split; [reflexivity|].
    rewrite length_map, length_firstn. cbn [length]. lia.
  - eexists. split; [reflexivity|]. cbn. lia.
Qed.
